(** * Excel-to-JSON converter (skeliton.py): shallow embedding and properties

    The Python program is a pipeline of four nodes (InputNode,
    RuleForWriterNode, JsonWriterNode, OutputNode) wired together by
    ExcelToJsonConverter.  The nodes are objects with mutable fields that
    read and write files; here they are records threaded through a small
    state-and-exception monad over a store that also holds the file system.

    Conventions of the model:
    - text is ASCII: [upper] and [lower] change the 26 letters only;
    - a float is represented by its [repr] text (Python's repr is the
      shortest text that reads back to the same float, and every NaN
      prints as "nan");
    - console messages ([print]) are not part of the model. *)

From Stdlib Require Import String Ascii List ZArith Lia Bool DecimalString.
Import ListNotations.
Open Scope string_scope.

(** ** Python strings *)

Module PyStr.

Definition is_upper (c : ascii) : bool :=
  let n := nat_of_ascii c in (65 <=? n)%nat && (n <=? 90)%nat.

Definition is_lower (c : ascii) : bool :=
  let n := nat_of_ascii c in (97 <=? n)%nat && (n <=? 122)%nat.

Definition lower_char (c : ascii) : ascii :=
  if is_upper c then ascii_of_nat (nat_of_ascii c + 32) else c.

Definition upper_char (c : ascii) : ascii :=
  if is_lower c then ascii_of_nat (nat_of_ascii c - 32) else c.

(** [s.lower()] *)
Fixpoint lower (s : string) : string :=
  match s with
  | EmptyString => EmptyString
  | String c s' => String (lower_char c) (lower s')
  end.

(** [s.upper()] *)
Fixpoint upper (s : string) : string :=
  match s with
  | EmptyString => EmptyString
  | String c s' => String (upper_char c) (upper s')
  end.

(** [s.replace(old, new)] for one-character [old] and [new]. *)
Fixpoint replace (old new : ascii) (s : string) : string :=
  match s with
  | EmptyString => EmptyString
  | String c s' =>
      String (if Ascii.eqb c old then new else c) (replace old new s')
  end.

(** [sub in s]: a left-to-right search for the first position at which
    [sub] is a prefix of the rest. *)
Fixpoint contains (sub s : string) : bool :=
  if prefix sub s then true
  else match s with
       | EmptyString => false
       | String _ s' => contains sub s'
       end.

(** [sep.join(l)] *)
Definition join (sep : string) (l : list string) : string :=
  String.concat sep l.

(** [str(n)] for an int. *)
Definition of_int (n : Z) : string := NilZero.string_of_int (Z.to_int n).

(** [str(b)] for a bool. *)
Definition of_bool (b : bool) : string := if b then "True" else "False".

(** [c in s] for a character. *)
Fixpoint mem_char (c : ascii) (s : string) : bool :=
  match s with
  | EmptyString => false
  | String d s' => Ascii.eqb c d || mem_char c s'
  end.

Definition double_quote : ascii := ascii_of_nat 34.
Definition single_quote : ascii := ascii_of_nat 39.
Definition backslash : ascii := ascii_of_nat 92.

Definition hex_digit (n : nat) : ascii :=
  if (n <? 10)%nat then ascii_of_nat (48 + n) else ascii_of_nat (87 + n).

(** One character of [repr(s)], inside the quote [q]. *)
Definition repr_char (q c : ascii) : string :=
  let n := nat_of_ascii c in
  if Ascii.eqb c q || Ascii.eqb c backslash then String backslash (String c "")
  else if (n =? 9)%nat then String backslash "t"
  else if (n =? 10)%nat then String backslash "n"
  else if (n =? 13)%nat then String backslash "r"
  else if (n <? 32)%nat || (n =? 127)%nat then
    String backslash (String "x"%char
      (String (hex_digit (n / 16)) (String (hex_digit (n mod 16)) "")))
  else String c "".

Fixpoint repr_body (q : ascii) (s : string) : string :=
  match s with
  | EmptyString => EmptyString
  | String c s' => repr_char q c ++ repr_body q s'
  end.

(** [repr(s)]: single quotes, unless the text has a single quote and no
    double quote. *)
Definition repr (s : string) : string :=
  let q := if mem_char single_quote s && negb (mem_char double_quote s)
           then double_quote else single_quote in
  String q (repr_body q s ++ String q "").

End PyStr.

(** ** Python values *)

(** The classes the program tests with [isinstance]. *)
Inductive pytype : Type :=
| t_NoneType | t_bool | t_int | t_float | t_str | t_list | t_dict | t_object.

Definition pytype_eqb (a b : pytype) : bool :=
  match a, b with
  | t_NoneType, t_NoneType | t_bool, t_bool | t_int, t_int
  | t_float, t_float | t_str, t_str | t_list, t_list | t_dict, t_dict
  | t_object, t_object => true
  | _, _ => false
  end.

(** [issubclass(a, b)]: every class is a subclass of itself and of
    [object], and [bool] is a subclass of [int]. *)
Definition issubclass (a b : pytype) : bool :=
  pytype_eqb a b || pytype_eqb b t_object
  || (pytype_eqb a t_bool && pytype_eqb b t_int).

(** A scalar held by a DataFrame cell, as [Series.items] hands it out. *)
Inductive cell : Type :=
| CNone                      (* None *)
| CNaT                       (* pandas.NaT, a missing date or time *)
| CBool (b : bool)
| CInt (n : Z)
| CFloat (repr : string)     (* CFloat "nan" is the missing number *)
| CStr (s : string)
| CObj (repr : string).      (* any other scalar, such as a Timestamp *)

Definition cell_type (v : cell) : pytype :=
  match v with
  | CNone => t_NoneType
  | CBool _ => t_bool
  | CInt _ => t_int
  | CFloat _ => t_float
  | CStr _ => t_str
  | CNaT | CObj _ => t_object
  end.

(** [isinstance(v, (t1, ..., tn))] *)
Definition isinstance (v : cell) (ts : list pytype) : bool :=
  existsb (issubclass (cell_type v)) ts.

(** [str(v)] *)
Definition cell_str (v : cell) : string :=
  match v with
  | CNone => "None"
  | CNaT => "NaT"
  | CBool b => PyStr.of_bool b
  | CInt n => PyStr.of_int n
  | CFloat r => r
  | CStr s => s
  | CObj r => r
  end.

(** [pd.isna(v)] on a scalar. *)
Definition isna (v : cell) : bool :=
  match v with
  | CNone | CNaT => true
  | CFloat r => String.eqb r "nan"
  | _ => false
  end.

(** [pd.notna(v)] *)
Definition notna (v : cell) : bool := negb (isna v).

(** What [json.load] returns, and what the writer builds. *)
#[local] Set Warnings "-register-all".
Inductive pyval : Type :=
| PNone
| PBool (b : bool)
| PInt (n : Z)
| PFloat (repr : string)
| PStr (s : string)
| PList (l : list pyval)
| PDict (d : list (string * pyval)).

(** [repr(v)] *)
Fixpoint py_repr (v : pyval) : string :=
  match v with
  | PNone => "None"
  | PBool b => PyStr.of_bool b
  | PInt n => PyStr.of_int n
  | PFloat r => r
  | PStr s => PyStr.repr s
  | PList l => "[" ++ PyStr.join ", " (map py_repr l) ++ "]"
  | PDict d =>
      "{" ++ PyStr.join ", "
               (map (fun kv => let '(k, x) := kv in
                               PyStr.repr k ++ ": " ++ py_repr x) d) ++ "}"
  end.

(** [str(v)], which is what an f-string field [{v}] inserts. *)
Definition py_str (v : pyval) : string :=
  match v with
  | PStr s => s
  | _ => py_repr v
  end.

(** [bool(v)] *)
Definition truthy (v : pyval) : bool :=
  match v with
  | PNone => false
  | PBool b => b
  | PInt n => negb (n =? 0)%Z
  | PFloat r => negb (String.eqb r "0.0" || String.eqb r "-0.0")
  | PStr s => negb (String.eqb s "")
  | PList l => match l with [] => false | _ => true end
  | PDict d => match d with [] => false | _ => true end
  end.
#[local] Set Warnings "register-all".

(** ** Exceptions *)

Inductive exn : Type :=
| FileNotFoundError
| OSError            (* any other failure of opening, reading or parsing *)
| TypeError
| KeyError
| AttributeError.

Inductive outcome (A : Type) : Type :=
| Return (a : A)
| Raise (e : exn).
Arguments Return {A} a.
Arguments Raise {A} e.

Definition obind {A B : Type} (c : outcome A) (k : A -> outcome B)
  : outcome B :=
  match c with
  | Return a => k a
  | Raise e => Raise e
  end.

Notation "x <-- c ;; k" := (obind c (fun x => k))
  (at level 61, c at next level, right associativity).

(** ** Dictionaries and containers *)

Fixpoint dict_lookup (k : string) (d : list (string * pyval))
  : option pyval :=
  match d with
  | [] => None
  | (k', x) :: d' => if String.eqb k k' then Some x else dict_lookup k d'
  end.

(** [v.get(k, default)]; only a dict has the method. *)
Definition py_get (v : pyval) (k : string) (default : pyval)
  : outcome pyval :=
  match v with
  | PDict d =>
      Return (match dict_lookup k d with Some x => x | None => default end)
  | _ => Raise AttributeError
  end.

(** [k in v] for a string [k]: a key of a dict, an element of a list, a
    substring of a string; other values are not containers. *)
Definition py_in (k : string) (v : pyval) : outcome bool :=
  match v with
  | PDict d =>
      Return (match dict_lookup k d with Some _ => true | None => false end)
  | PList l =>
      Return (existsb (fun x => match x with
                                | PStr s => String.eqb k s
                                | _ => false
                                end) l)
  | PStr s => Return (PyStr.contains k s)
  | _ => Raise TypeError
  end.

(** [v[k]] for a string [k]. *)
Definition py_getitem (v : pyval) (k : string) : outcome pyval :=
  match v with
  | PDict d =>
      match dict_lookup k d with
      | Some x => Return x
      | None => Raise KeyError
      end
  | _ => Raise TypeError
  end.

(** ** DataFrames *)

(** A DataFrame as [pd.read_excel] builds it: string column labels, the
    default index 0, 1, 2, ..., and the cells row by row. *)
Record DataFrame : Type := mkDataFrame {
  df_columns : list string;        (* data.columns.tolist() *)
  df_values : list (list cell)     (* data.values.tolist() *)
}.

(** A row as a Series: the cells under their column labels. *)
Definition Series : Type := list (string * cell).

(** [data.iterrows()]: the index label and the row, in order. *)
Definition iterrows (data : DataFrame) : list (Z * Series) :=
  combine (map Z.of_nat (seq 0 (length (df_values data))))
          (map (combine (df_columns data)) (df_values data)).

(** Every row has one cell per column. *)
Definition well_formed (data : DataFrame) : Prop :=
  Forall (fun r => length r = length (df_columns data)) (df_values data).

(** ** The store: files and objects *)

(** What a path holds.  [Unreadable] stands for anything that makes
    opening, reading or parsing fail other than the file not being there. *)
Inductive file : Type :=
| Missing
| Unreadable
| Workbook (df : DataFrame)
| JsonDoc (v : pyval).

Inductive event : Type :=
| ReadExcel (path : string)
| ReadJson (path : string)
| WriteJson (path : string).

Record InputNode : Type := mkInputNode {
  excel_file_path : string;
  data : option DataFrame;
  columns : list string;
  rows : list (list cell)
}.

Record RuleForWriterNode : Type := mkRuleForWriterNode {
  rules_file_path : string;
  rules : pyval
}.

(** The writer's references to the input and rule nodes are the nodes of
    the same store. *)
Record JsonWriterNode : Type := mkJsonWriterNode {
  output_json : pyval
}.

Record OutputNode : Type := mkOutputNode {
  output_file_path : string
}.

Record Store : Type := mkStore {
  files : string -> file;
  writable : string -> bool;       (* can the path be opened for writing *)
  trace : list event;              (* file accesses, oldest first *)
  input_node : InputNode;
  rule_node : RuleForWriterNode;
  json_writer_node : JsonWriterNode;
  output_node : OutputNode
}.

Definition with_files (f : string -> file) (s : Store) : Store :=
  mkStore f (writable s) (trace s) (input_node s) (rule_node s)
          (json_writer_node s) (output_node s).

Definition with_trace (t : list event) (s : Store) : Store :=
  mkStore (files s) (writable s) t (input_node s) (rule_node s)
          (json_writer_node s) (output_node s).

Definition with_input_node (n : InputNode) (s : Store) : Store :=
  mkStore (files s) (writable s) (trace s) n (rule_node s)
          (json_writer_node s) (output_node s).

Definition with_rule_node (n : RuleForWriterNode) (s : Store) : Store :=
  mkStore (files s) (writable s) (trace s) (input_node s) n
          (json_writer_node s) (output_node s).

Definition with_json_writer_node (n : JsonWriterNode) (s : Store) : Store :=
  mkStore (files s) (writable s) (trace s) (input_node s) (rule_node s)
          n (output_node s).

(** ** The monad of methods: state and exceptions *)

Definition M (A : Type) : Type := Store -> outcome A * Store.

Definition ret {A : Type} (a : A) : M A := fun s => (Return a, s).

Definition raise {A : Type} (e : exn) : M A := fun s => (Raise e, s).

Definition bind {A B : Type} (c : M A) (k : A -> M B) : M B :=
  fun s =>
    match c s with
    | (Return a, s') => k a s'
    | (Raise e, s') => (Raise e, s')
    end.

Notation "x <- c ;; k" := (bind c (fun x => k))
  (at level 61, c at next level, right associativity).
Notation "c ;;; k" := (bind c (fun _ => k))
  (at level 61, right associativity).

Definition lift {A : Type} (o : outcome A) : M A := fun s => (o, s).

Definition gets {A : Type} (f : Store -> A) : M A :=
  fun s => (Return (f s), s).

Definition modify (f : Store -> Store) : M unit :=
  fun s => (Return tt, f s).

(** [try: c  except ...: h]; what [c] did to the store before raising
    stays done. *)
Definition try_except {A : Type} (c : M A) (h : exn -> M A) : M A :=
  fun s =>
    match c s with
    | (Return a, s') => (Return a, s')
    | (Raise e, s') => h e s'
    end.

Definition log (e : event) : M unit :=
  modify (fun s => with_trace (trace s ++ [e])%list s).

(** ** File operations *)

(** [pd.read_excel(path)] *)
Definition read_excel (path : string) : M DataFrame :=
  log (ReadExcel path) ;;;
  f <- gets (fun s => files s path) ;;
  match f with
  | Workbook df => ret df
  | Missing => raise FileNotFoundError
  | _ => raise OSError
  end.

(** [with open(path, 'r', encoding='utf-8') as file: json.load(file)] *)
Definition json_load (path : string) : M pyval :=
  log (ReadJson path) ;;;
  f <- gets (fun s => files s path) ;;
  match f with
  | JsonDoc v => ret v
  | Missing => raise FileNotFoundError
  | _ => raise OSError
  end.

(** [with open(path, 'w', encoding='utf-8') as file: json.dump(doc, file, ...)];
    afterwards the path holds the document. *)
Definition json_dump (doc : pyval) (path : string) : M unit :=
  w <- gets (fun s => writable s path) ;;
  if w : bool then
    log (WriteJson path) ;;;
    modify (fun s => with_files
              (fun p => if String.eqb p path then JsonDoc doc else files s p) s)
  else raise OSError.

(** ** InputNode *)

Definition InputNode_process : M (option DataFrame) :=
  try_except
    (path <- gets (fun s => excel_file_path (input_node s)) ;;
     df <- read_excel path ;;
     modify (fun s =>
       with_input_node
         (mkInputNode (excel_file_path (input_node s)) (Some df)
                      (df_columns df) (df_values df)) s) ;;;
     ret (Some df))
    (fun _ => ret None).

Definition get_data : M (option DataFrame) :=
  d <- gets (fun s => data (input_node s)) ;;
  match d with
  | Some df => ret (Some df)
  | None => InputNode_process
  end.

Definition get_columns : M (list string) :=
  gets (fun s => columns (input_node s)).

Definition get_row_count : M nat :=
  gets (fun s => length (rows (input_node s))).

(** ** RuleForWriterNode *)

Definition _get_default_rules : pyval :=
  PDict [("patterns",
    PDict [("text_pattern",
      PDict [("pi_code", PStr "MES_REVENGG_TESTRUN");
             ("section_prefix", PStr "SECTION");
             ("label_prefix", PStr "LABEL_");
             ("code_suffix", PStr "_TextPara");
             ("kind_mapping",
               PDict [("text", PStr "TEXT");
                      ("number", PStr "NUMBER");
                      ("boolean", PStr "BOOLEAN")])])])].

Definition set_rules (v : pyval) : M unit :=
  modify (fun s =>
    with_rule_node (mkRuleForWriterNode (rules_file_path (rule_node s)) v) s).

Definition RuleForWriterNode_process : M pyval :=
  try_except
    (path <- gets (fun s => rules_file_path (rule_node s)) ;;
     v <- json_load path ;;
     set_rules v ;;;
     ret v)
    (fun e =>
       match e with
       | FileNotFoundError =>
           set_rules _get_default_rules ;;;
           gets (fun s => rules (rule_node s))
       | _ => ret PNone
       end).

Definition get_rules : M pyval :=
  r <- gets (fun s => rules (rule_node s)) ;;
  match r with
  | PNone => RuleForWriterNode_process
  | _ => ret r
  end.

Definition get_rule_by_pattern (pattern_key : string) : M pyval :=
  r <- gets (fun s => rules (rule_node s)) ;;
  if truthy r then
    has <- lift (py_in "patterns" r) ;;
    if has : bool then
      patterns <- lift (py_getitem r "patterns") ;;
      lift (py_get patterns pattern_key (PDict []))
    else ret (PDict [])
  else ret (PDict []).

(** ** JsonWriterNode *)

Definition analyze_data_pattern (data : DataFrame) : string :=
  let columns := df_columns data in
  let column_str := PyStr.join " " (map PyStr.lower columns) in
  if PyStr.contains "text" column_str || PyStr.contains "name" column_str
  then "text_pattern"
  else if PyStr.contains "section" column_str
  then "section_pattern"
  else "text_pattern".

Definition determine_data_type (value : cell) : string :=
  if isna value then "TEXT"
  else if isinstance value [t_str] then "TEXT"
  else if isinstance value [t_int; t_float] then "NUMBER"
  else if isinstance value [t_bool] then "BOOLEAN"
  else "TEXT".

(** The dict built for one cell of a row. *)
Definition row_item (label_prefix code_suffix : pyval)
    (col_name : string) (cell_value : cell) : pyval :=
  PDict [("label", PStr (py_str label_prefix ++ PyStr.upper col_name));
         ("kind", PStr (determine_data_type cell_value));
         ("code", PStr (col_name ++ py_str code_suffix));
         ("html_overrides",
           PDict [("value",
             PStr ("[GENAI_REVENGG_"
                   ++ PyStr.replace " " "_" (PyStr.upper (cell_str cell_value))
                   ++ "]"))])].

(** The two loops append to the lists they build; each is a left fold
    whose accumulator is the list so far. *)
Definition process_sections (data : DataFrame) (rules : pyval)
  : outcome (list pyval) :=
  section_prefix <-- py_get rules "section_prefix" (PStr "SECTION") ;;
  label_prefix <-- py_get rules "label_prefix" (PStr "LABEL_") ;;
  code_suffix <-- py_get rules "code_suffix" (PStr "_Code") ;;
  Return
    (fold_left
       (fun sections (ir : Z * Series) =>
          let '(index, row) := ir in
          let title := py_str section_prefix ++ " " ++ PyStr.of_int (index + 1)%Z in
          let section_rows :=
            fold_left
              (fun acc (item : string * cell) =>
                 let '(col_name, cell_value) := item in
                 if notna cell_value
                 then (acc ++ [row_item label_prefix code_suffix
                                        col_name cell_value])%list
                 else acc)
              row [] in
          (sections ++ [PDict [("title", PStr title);
                               ("rows", PList section_rows)]])%list)
       (iterrows data) []).

Definition set_output_json (v : pyval) : M unit :=
  modify (with_json_writer_node (mkJsonWriterNode v)).

Definition JsonWriterNode_process : M pyval :=
  d <- get_data ;;
  match d with
  | None => ret PNone
  | Some data =>
      r <- get_rules ;;
      match r with
      | PNone => ret PNone
      | _ =>
          let pattern := analyze_data_pattern data in
          pattern_rules <- get_rule_by_pattern pattern ;;
          pi_code <- lift (py_get pattern_rules "pi_code"
                                  (PStr "DEFAULT_CODE")) ;;
          sections <- lift (process_sections data pattern_rules) ;;
          set_output_json (PDict [("pi_code", pi_code);
                                  ("sections", PList sections)]) ;;;
          gets (fun s => output_json (json_writer_node s))
      end
  end.

Definition get_output : M pyval :=
  o <- gets (fun s => output_json (json_writer_node s)) ;;
  match o with
  | PNone => JsonWriterNode_process
  | _ => ret o
  end.

(** ** OutputNode *)

Definition OutputNode_process : M bool :=
  try_except
    (output_data <- get_output ;;
     match output_data with
     | PNone => ret false
     | _ =>
         path <- gets (fun s => output_file_path (output_node s)) ;;
         json_dump output_data path ;;;
         ret true
     end)
    (fun _ => ret false).

(** ** ExcelToJsonConverter *)

(** [os.path.join(cwd, name)] for a relative [name]. *)
Definition os_path_join (cwd name : string) : string :=
  match cwd with
  | EmptyString => name
  | _ => if String.eqb (substring (String.length cwd - 1) 1 cwd) "/"
         then cwd ++ name
         else cwd ++ "/" ++ name
  end.

(** The constructor: fresh nodes over the given file system, where [cwd]
    is what [os.getcwd()] returns. *)
Definition ExcelToJsonConverter (fs : string -> file) (w : string -> bool)
    (cwd : string) (excel_file_path rules_file_path : string)
    (output_file_path : option string) : Store :=
  mkStore fs w []
    (mkInputNode excel_file_path None [] [])
    (mkRuleForWriterNode rules_file_path PNone)
    (mkJsonWriterNode PNone)
    (mkOutputNode
       (match output_file_path with
        | Some p => p
        | None => os_path_join cwd "converted_output.json"
        end)).

Definition convert : M bool := OutputNode_process.

Definition get_preview : M pyval := get_output.

(** ** Notions used to state the properties *)

(** [sub] occurs somewhere in [s]. *)
Definition substring_of (sub s : string) : Prop :=
  exists pre post, s = pre ++ sub ++ post.

(** The column names, lowercased and joined with single spaces. *)
Definition joined_columns (data : DataFrame) : string :=
  PyStr.join " " (map PyStr.lower (df_columns data)).

(** The entry of a pattern configuration, or its fallback. *)
Definition field (cfg : list (string * pyval)) (k : string)
    (default : pyval) : pyval :=
  match dict_lookup k cfg with
  | Some x => x
  | None => default
  end.

(** The cells of a row that are not null, under their column names. *)
Definition present_cells (cols : list string) (r : list cell)
  : list (string * cell) :=
  filter (fun cv => notna (snd cv)) (combine cols r).

(** The section expected for row number [i] (from 0). *)
Definition section_of (section_prefix label_prefix code_suffix : pyval)
    (cols : list string) (i : nat) (r : list cell) : pyval :=
  PDict [("title", PStr (py_str section_prefix ++ " "
                         ++ PyStr.of_int (Z.of_nat i + 1)));
         ("rows", PList (map (fun cv => row_item label_prefix code_suffix
                                                 (fst cv) (snd cv))
                             (present_cells cols r)))].

(** The sections expected for a table under a pattern configuration. *)
Definition sections_of (cfg : list (string * pyval)) (data : DataFrame)
  : list pyval :=
  map (fun ir => section_of (field cfg "section_prefix" (PStr "SECTION"))
                            (field cfg "label_prefix" (PStr "LABEL_"))
                            (field cfg "code_suffix" (PStr "_Code"))
                            (df_columns data) (fst ir) (snd ir))
      (combine (seq 0 (length (df_values data))) (df_values data)).

(** A RowItem whose kind satisfies [P]. *)
Definition row_item_with_kind (P : string -> Prop) (it : pyval) : Prop :=
  exists label kind code value,
    it = PDict [("label", PStr label); ("kind", PStr kind);
                ("code", PStr code);
                ("html_overrides", PDict [("value", PStr value)])]
    /\ P kind.

(** A Section all of whose RowItems have a kind satisfying [P]. *)
Definition section_with_kinds (P : string -> Prop) (sec : pyval) : Prop :=
  exists title items,
    sec = PDict [("title", PStr title); ("rows", PList items)]
    /\ Forall (row_item_with_kind P) items.

(** An OutputDocument all of whose RowItems have a kind satisfying [P]. *)
Definition document_with_kinds (P : string -> Prop) (doc : pyval) : Prop :=
  exists pi_code sections,
    doc = PDict [("pi_code", pi_code); ("sections", PList sections)]
    /\ Forall (section_with_kinds P) sections.

(** The rules have the shape of a RuleSet: not loaded yet, or a mapping
    whose "patterns" entry, when there is one, is a mapping. *)
Definition ruleset_shaped (r : pyval) : Prop :=
  r = PNone \/
  exists d, r = PDict d /\
    (dict_lookup "patterns" d = None \/
     exists ps, dict_lookup "patterns" d = Some (PDict ps)).

(** The pattern configuration a RuleSet holds under a key, if any. *)
Definition configured (r : pyval) (key : string) : option pyval :=
  match r with
  | PDict d =>
      match dict_lookup "patterns" d with
      | Some (PDict ps) => dict_lookup key ps
      | _ => None
      end
  | _ => None
  end.

(** The store after [n] further calls of a method. *)
Fixpoint after_calls {A : Type} (c : M A) (n : nat) (s : Store) : Store :=
  match n with
  | O => s
  | S n' => after_calls c n' (snd (c s))
  end.

(** How often a path was opened by [pd.read_excel]. *)
Definition excel_reads (path : string) (t : list event) : nat :=
  length (filter (fun e => match e with
                           | ReadExcel p => String.eqb p path
                           | _ => false
                           end) t).

(** How often a path was opened for [json.load]. *)
Definition json_reads (path : string) (t : list event) : nat :=
  length (filter (fun e => match e with
                           | ReadJson p => String.eqb p path
                           | _ => false
                           end) t).

(** The paths written so far. *)
Definition writes (t : list event) : list string :=
  flat_map (fun e => match e with
                     | WriteJson p => [p]
                     | _ => []
                     end) t.

(** What loading the table or the rules leaves alone: [s'] differs from [s]
    in the loaded fields and in the reads recorded, at most. *)
Record frame (s s' : Store) : Prop := mkFrame {
  frame_files : files s' = files s;
  frame_writable : writable s' = writable s;
  frame_output_json : json_writer_node s' = json_writer_node s;
  frame_output_node : output_node s' = output_node s;
  frame_excel_path :
    excel_file_path (input_node s') = excel_file_path (input_node s);
  frame_rules_path :
    rules_file_path (rule_node s') = rules_file_path (rule_node s);
  frame_writes : writes (trace s') = writes (trace s)
}.

(** ** Example inputs *)

(** One column, one row. *)
Definition name_table : DataFrame :=
  mkDataFrame ["Name"] [[CStr "john doe"]].

(** Five columns; the only row has three empty cells. *)
Definition sparse_table : DataFrame :=
  mkDataFrame ["Id"; "Name"; "Due"; "Score"; "Note"]
              [[CInt 7; CStr "ann"; CNaT; CFloat "nan"; CNone]].

(** No "text" and no "name" among the columns, but "section". *)
Definition section_table : DataFrame :=
  mkDataFrame ["Section"; "Id"] [[CStr "intro"; CInt 1]].

(** A directory that holds the given workbook and nothing else. *)
Definition only_workbook (df : DataFrame) (p : string) : file :=
  if String.eqb p "input_data.xlsx" then Workbook df else Missing.

(** A directory whose workbook is damaged and whose rules file holds the
    JSON text [null]. *)
Definition damaged_directory (p : string) : file :=
  if String.eqb p "input_data.xlsx" then Unreadable
  else if String.eqb p "conversion_rules.json" then JsonDoc PNone
  else Missing.

(** The converter of the script's main block over a directory. *)
Definition main_converter (fs : string -> file) : Store :=
  ExcelToJsonConverter fs (fun _ => true) "/work"
    "input_data.xlsx" "conversion_rules.json" None.

(** ** Notions for the remaining methods *)

(** The three fields of the input node agree: nothing is loaded and there
    are no columns and no rows, or they are those of the loaded table. *)
Definition input_consistent (s : Store) : Prop :=
  match data (input_node s) with
  | None => columns (input_node s) = [] /\ rows (input_node s) = []
  | Some df =>
      columns (input_node s) = df_columns df /\
      rows (input_node s) = df_values df
  end.

(** A read of one of the two input files of the converter. *)
Definition own_read (s : Store) (e : event) : Prop :=
  e = ReadExcel (excel_file_path (input_node s)) \/
  e = ReadJson (rules_file_path (rule_node s)).

(** An access to one of the three files of the converter. *)
Definition own_access (s : Store) (e : event) : Prop :=
  own_read s e \/ e = WriteJson (output_file_path (output_node s)).

(** [s'] comes from [s] by loading: files and paths are as they were, the
    trace has grown by reads of the converter's input files, and the input
    node is as it was or holds a freshly read table. *)
Record loads (s s' : Store) : Prop := mkLoads {
  loads_files : files s' = files s;
  loads_writable : writable s' = writable s;
  loads_output_node : output_node s' = output_node s;
  loads_excel_path :
    excel_file_path (input_node s') = excel_file_path (input_node s);
  loads_rules_path :
    rules_file_path (rule_node s') = rules_file_path (rule_node s);
  loads_trace :
    exists t, trace s' = (trace s ++ t)%list /\ Forall (own_read s) t;
  loads_input :
    input_node s' = input_node s \/
    exists df, input_node s' =
               mkInputNode (excel_file_path (input_node s)) (Some df)
                           (df_columns df) (df_values df)
}.

(** Some column name, lowercased, contains the word. *)
Definition column_mentions (word : string) (data : DataFrame) : Prop :=
  exists c, In c (df_columns data) /\ substring_of word (PyStr.lower c).


(** A rules file whose text_pattern is a string instead of a mapping. *)
Definition misconfigured_directory (p : string) : file :=
  if String.eqb p "input_data.xlsx" then Workbook name_table
  else if String.eqb p "conversion_rules.json"
  then JsonDoc (PDict [("patterns", PDict [("text_pattern", PStr "oops")])])
  else Missing.

(** * Properties *)

(** ** Strings *)

Lemma prefix_spec (sub s : string) :
  prefix sub s = true <-> exists post, s = sub ++ post.
Proof.
  revert s. induction sub as [|a sub IH]; intros s.
  - split; [intros _; now exists s | intros _; now destruct s].
  - destruct s as [|b s]; simpl.
    + split; [discriminate | intros [post H]; discriminate].
    + destruct (ascii_dec a b) as [->|Hab].
      * rewrite IH. split; intros [post H]; exists post.
        -- now rewrite H.
        -- now injection H.
      * split; [discriminate|].
        intros [post H]. injection H as H1 _. congruence.
Qed.

Lemma contains_cons (sub : string) (c : ascii) (s : string) :
  PyStr.contains sub (String c s) =
  if prefix sub (String c s) then true else PyStr.contains sub s.
Proof. reflexivity. Qed.

Lemma contains_empty (sub : string) :
  PyStr.contains sub "" = prefix sub "".
Proof. unfold PyStr.contains. now destruct (prefix sub ""). Qed.

Lemma contains_spec (sub s : string) :
  PyStr.contains sub s = true <-> substring_of sub s.
Proof.
  unfold substring_of. induction s as [|c s IH].
  - rewrite contains_empty, prefix_spec. split.
    + intros [post H]. now exists "", post.
    + intros (pre & post & H). destruct pre; [|discriminate].
      now exists post.
  - rewrite contains_cons.
    destruct (prefix sub (String c s)) eqn:Hp.
    + split; [intros _|reflexivity].
      apply prefix_spec in Hp. destruct Hp as [post Hp].
      now exists "", post.
    + rewrite IH. split.
      * intros (pre & post & H). exists (String c pre), post.
        simpl. now rewrite H.
      * intros (pre & post & H). destruct pre as [|c' pre].
        -- simpl in H.
           assert (prefix sub (String c s) = true)
             by (apply prefix_spec; now exists post).
           congruence.
        -- simpl in H. injection H as _ H. now exists pre, post.
Qed.

Lemma contains_false (sub s : string) :
  PyStr.contains sub s = false <-> ~ substring_of sub s.
Proof.
  rewrite <- contains_spec. destruct (PyStr.contains sub s); split;
    congruence.
Qed.

(** ** Loops that append *)

Lemma fold_left_collect {A B : Type} (g : list B -> A -> list B)
    (p : A -> bool) (f : A -> B) :
  (forall acc x, g acc x = if p x then (acc ++ [f x])%list else acc) ->
  forall l init, fold_left g l init = (init ++ map f (filter p l))%list.
Proof.
  intros Hg l. induction l as [|x l IH]; intros init; simpl.
  - now rewrite app_nil_r.
  - rewrite IH, Hg. destruct (p x); [|reflexivity].
    now rewrite <- app_assoc.
Qed.

Lemma fold_left_snoc {A B : Type} (g : list B -> A -> list B) (f : A -> B) :
  (forall acc x, g acc x = (acc ++ [f x])%list) ->
  forall l init, fold_left g l init = (init ++ map f l)%list.
Proof.
  intros Hg l. induction l as [|x l IH]; intros init; simpl.
  - now rewrite app_nil_r.
  - rewrite IH, Hg. now rewrite <- app_assoc.
Qed.

Lemma map_combine_maps {A A' B B' C : Type} (a : A -> A') (b : B -> B')
    (F : A' * B' -> C) (l1 : list A) (l2 : list B) :
  map F (combine (map a l1) (map b l2)) =
  map (fun xy => F (a (fst xy), b (snd xy))) (combine l1 l2).
Proof.
  revert l2. induction l1 as [|x l1 IH]; intros [|y l2]; simpl;
    try reflexivity.
  now rewrite IH.
Qed.

Lemma nth_error_enumerate {A : Type} (l : list A) (k i : nat) :
  nth_error (combine (seq k (length l)) l) i =
  option_map (fun x => ((k + i)%nat, x)) (nth_error l i).
Proof.
  revert k i. induction l as [|x l IH]; intros k [|i]; simpl;
    try reflexivity.
  - now rewrite Nat.add_0_r.
  - rewrite IH. now rewrite Nat.add_succ_r.
Qed.

Lemma length_enumerate {A : Type} (l : list A) (k : nat) :
  length (combine (seq k (length l)) l) = length l.
Proof.
  rewrite length_combine, length_seq. apply Nat.min_id.
Qed.

Lemma present_cells_length (cols : list string) (r : list cell) :
  length r = length cols ->
  length (present_cells cols r) = length (filter notna r).
Proof.
  unfold present_cells. revert r.
  induction cols as [|c cols IH]; intros [|v r] H; simpl in *;
    try reflexivity; try discriminate.
  injection H as H. destruct (notna v); simpl; now rewrite IH.
Qed.

(** ** process_sections as a map over the rows *)

Lemma process_sections_spec (data : DataFrame)
    (cfg : list (string * pyval)) :
  process_sections data (PDict cfg) = Return (sections_of cfg data).
Proof.
  unfold process_sections, sections_of, iterrows. simpl. f_equal.
  fold (field cfg "section_prefix" (PStr "SECTION")).
  fold (field cfg "label_prefix" (PStr "LABEL_")).
  fold (field cfg "code_suffix" (PStr "_Code")).
  set (sp := field cfg "section_prefix" (PStr "SECTION")).
  set (lp := field cfg "label_prefix" (PStr "LABEL_")).
  set (cs := field cfg "code_suffix" (PStr "_Code")).
  erewrite fold_left_snoc with
    (f := fun ir : Z * Series =>
            PDict [("title", PStr (py_str sp ++ " "
                                   ++ PyStr.of_int (fst ir + 1)));
                   ("rows", PList (map (fun cv => row_item lp cs
                                                  (fst cv) (snd cv))
                                       (filter (fun cv => notna (snd cv))
                                               (snd ir))))]).
  - simpl. now rewrite map_combine_maps.
  - intros acc [index row]. simpl. do 4 f_equal.
    erewrite fold_left_collect with
      (p := fun cv : string * cell => notna (snd cv))
      (f := fun cv => row_item lp cs (fst cv) (snd cv)).
    + reflexivity.
    + now intros acc' [c v].
Qed.

Lemma process_sections_not_dict (data : DataFrame) (rules : pyval) :
  (forall cfg, rules <> PDict cfg) ->
  process_sections data rules = Raise AttributeError.
Proof.
  intros H. destruct rules; try reflexivity. now elim (H d).
Qed.

(** ** Kind inference *)

(** C1: a boolean cell is meant to be classified BOOLEAN, but the test for
    int and float comes first and bool is a subclass of int, so the code
    classifies both booleans as NUMBER; the BOOLEAN branch is never
    reached. *)
Theorem determine_data_type_bool_is_number :
  forall b : bool, determine_data_type (CBool b) = "NUMBER".
Proof. intros [|]; reflexivity. Qed.

Lemma determine_data_type_cases (v : cell) :
  determine_data_type v =
  match v with
  | CBool _ | CInt _ => "NUMBER"
  | CFloat r => if String.eqb r "nan" then "TEXT" else "NUMBER"
  | _ => "TEXT"
  end.
Proof.
  destruct v; reflexivity.
Qed.

Lemma determine_data_type_text_or_number (v : cell) :
  determine_data_type v = "TEXT" \/ determine_data_type v = "NUMBER".
Proof.
  rewrite determine_data_type_cases.
  destruct v; auto. destruct (String.eqb repr "nan"); auto.
Qed.

(** ** Pattern selection *)

(** C3: the pattern is decided by the lowercased, space-joined column
    names, first match first: "text" or "name" gives text_pattern; failing
    that, "section" gives section_pattern; failing that, text_pattern.  The
    columns Name, Section give text_pattern. *)
Theorem analyze_data_pattern_first_match :
  (forall data : DataFrame,
     ((substring_of "text" (joined_columns data) \/
       substring_of "name" (joined_columns data)) ->
      analyze_data_pattern data = "text_pattern") /\
     (~ substring_of "text" (joined_columns data) ->
      ~ substring_of "name" (joined_columns data) ->
      substring_of "section" (joined_columns data) ->
      analyze_data_pattern data = "section_pattern") /\
     (~ substring_of "text" (joined_columns data) ->
      ~ substring_of "name" (joined_columns data) ->
      ~ substring_of "section" (joined_columns data) ->
      analyze_data_pattern data = "text_pattern")) /\
  (forall values : list (list cell),
     analyze_data_pattern (mkDataFrame ["Name"; "Section"] values)
     = "text_pattern").
Proof.
  split; [|reflexivity].
  intros data. unfold analyze_data_pattern. fold (joined_columns data).
  repeat split.
  - intros [H|H]; apply contains_spec in H; rewrite H;
      [reflexivity | now rewrite orb_true_r].
  - intros Ht Hn Hs. apply contains_false in Ht, Hn.
    apply contains_spec in Hs. now rewrite Ht, Hn, Hs.
  - intros Ht Hn Hs. apply contains_false in Ht, Hn, Hs.
    now rewrite Ht, Hn, Hs.
Qed.

(** ** Sections and row items *)

(** C2: for a table and a pattern configuration, process_sections gives one
    Section per row, in row order (the i-th Section carries the i-th title
    and is built from the i-th row), and the RowItems of a Section are those
    of the row's non-null cells, one each, in column order. *)
Theorem process_sections_one_section_per_row :
  forall (data : DataFrame) (cfg : list (string * pyval)),
    well_formed data ->
    exists sections,
      process_sections data (PDict cfg) = Return sections /\
      length sections = length (df_values data) /\
      forall (i : nat) (r : list cell),
        nth_error (df_values data) i = Some r ->
        exists items,
          nth_error sections i =
            Some (PDict
                    [("title",
                       PStr (py_str (field cfg "section_prefix"
                                           (PStr "SECTION"))
                             ++ " " ++ PyStr.of_int (Z.of_nat i + 1)));
                     ("rows", PList items)]) /\
          length items = length (filter notna r) /\
          items = map (fun cv =>
                         row_item (field cfg "label_prefix" (PStr "LABEL_"))
                                  (field cfg "code_suffix" (PStr "_Code"))
                                  (fst cv) (snd cv))
                      (present_cells (df_columns data) r).
Proof.
  intros data cfg Hwf. exists (sections_of cfg data).
  split; [apply process_sections_spec|]. split.
  - unfold sections_of. now rewrite length_map, length_enumerate.
  - intros i r Hr. eexists. split; [|split; [|reflexivity]].
    + unfold sections_of. rewrite nth_error_map, nth_error_enumerate, Hr.
      reflexivity.
    + rewrite length_map. apply present_cells_length.
      unfold well_formed in Hwf. rewrite Forall_forall in Hwf.
      apply Hwf. eapply nth_error_In, Hr.
Qed.

Lemma process_sections_one_section_per_row_witness :
  exists sections items,
    process_sections sparse_table (PDict []) = Return sections /\
    length sections = 1%nat /\
    nth_error sections 0 =
      Some (PDict [("title", PStr "SECTION 1"); ("rows", PList items)]) /\
    length items = 2%nat.
Proof.
  destruct (process_sections_one_section_per_row sparse_table [])
    as (sections & Hrun & Hlen & Hrows).
  - repeat constructor.
  - destruct (Hrows 0%nat _ eq_refl) as (items & Hnth & Hitems & _).
    exists sections, items. repeat split; assumption.
Defined.

(** ** Running the nodes *)

Lemma InputNode_process_run (s : Store) :
  InputNode_process s =
  let path := excel_file_path (input_node s) in
  let s1 := with_trace (trace s ++ [ReadExcel path]) s in
  match files s path with
  | Workbook df =>
      (Return (Some df),
       with_input_node
         (mkInputNode path (Some df) (df_columns df) (df_values df)) s1)
  | _ => (Return None, s1)
  end.
Proof.
  unfold InputNode_process, try_except, read_excel, bind, log, modify, gets,
    ret, raise.
  simpl. now destruct (files s (excel_file_path (input_node s))).
Qed.

Lemma get_data_run (s : Store) :
  get_data s =
  match data (input_node s) with
  | Some df => (Return (Some df), s)
  | None => InputNode_process s
  end.
Proof.
  unfold get_data, bind, gets. simpl. now destruct (data (input_node s)).
Qed.

Lemma RuleForWriterNode_process_run (s : Store) :
  RuleForWriterNode_process s =
  let path := rules_file_path (rule_node s) in
  let s1 := with_trace (trace s ++ [ReadJson path]) s in
  match files s path with
  | JsonDoc v => (Return v, with_rule_node (mkRuleForWriterNode path v) s1)
  | Missing =>
      (Return _get_default_rules,
       with_rule_node (mkRuleForWriterNode path _get_default_rules) s1)
  | _ => (Return PNone, s1)
  end.
Proof.
  unfold RuleForWriterNode_process, try_except, json_load, set_rules, bind,
    log, modify, gets, ret, raise.
  simpl. now destruct (files s (rules_file_path (rule_node s))).
Qed.

Lemma get_rules_run (s : Store) :
  get_rules s =
  match rules (rule_node s) with
  | PNone => RuleForWriterNode_process s
  | r => (Return r, s)
  end.
Proof.
  unfold get_rules, bind, gets. simpl. now destruct (rules (rule_node s)).
Qed.

Lemma get_rule_by_pattern_store (key : string) (s : Store) :
  snd (get_rule_by_pattern key s) = s.
Proof.
  unfold get_rule_by_pattern, bind, gets, lift, ret. simpl.
  destruct (truthy (rules (rule_node s))); [|reflexivity].
  destruct (py_in "patterns" (rules (rule_node s))) as [[|]|e];
    try reflexivity.
  now destruct (py_getitem (rules (rule_node s)) "patterns").
Qed.

(** The document built from a pattern configuration. *)
Lemma JsonWriterNode_process_run (s : Store) :
  JsonWriterNode_process s =
  match get_data s with
  | (Return None, s1) => (Return PNone, s1)
  | (Return (Some data), s1) =>
      match get_rules s1 with
      | (Return PNone, s2) => (Return PNone, s2)
      | (Return _, s2) =>
          match get_rule_by_pattern (analyze_data_pattern data) s2 with
          | (Return (PDict cfg), s3) =>
              let doc :=
                PDict [("pi_code", field cfg "pi_code" (PStr "DEFAULT_CODE"));
                       ("sections", PList (sections_of cfg data))] in
              (Return doc, with_json_writer_node (mkJsonWriterNode doc) s3)
          | (Return _, s3) => (Raise AttributeError, s3)
          | (Raise e, s3) => (Raise e, s3)
          end
      | (Raise e, s2) => (Raise e, s2)
      end
  | (Raise e, s1) => (Raise e, s1)
  end.
Proof.
  unfold JsonWriterNode_process, bind.
  destruct (get_data s) as [[[data|]|e] s1]; try reflexivity.
  destruct (get_rules s1) as [[r|e] s2]; [|reflexivity].
  destruct r; try reflexivity;
    (destruct (get_rule_by_pattern (analyze_data_pattern data) s2)
       as [[pr|e] s3]; [|reflexivity];
     destruct pr; try reflexivity;
     unfold lift; cbn -[process_sections]; rewrite process_sections_spec;
     reflexivity).
Qed.

Lemma get_output_run (s : Store) :
  get_output s =
  match output_json (json_writer_node s) with
  | PNone => JsonWriterNode_process s
  | o => (Return o, s)
  end.
Proof.
  unfold get_output, bind, gets. simpl.
  now destruct (output_json (json_writer_node s)).
Qed.

Lemma get_rule_by_pattern_run (key : string) (s : Store) :
  ruleset_shaped (rules (rule_node s)) ->
  get_rule_by_pattern key s =
  (Return (match configured (rules (rule_node s)) key with
           | Some cfg => cfg
           | None => PDict []
           end), s).
Proof.
  unfold get_rule_by_pattern, bind, gets, lift, ret. simpl.
  intros [H | (d & H & Hp)]; rewrite H; [reflexivity|].
  destruct d as [|kv d]; [reflexivity|].
  change (truthy (PDict (kv :: d))) with true. cbv iota.
  unfold py_in, py_getitem, configured.
  destruct Hp as [Hp | (ps & Hp)]; rewrite Hp; [reflexivity|].
  unfold py_get. now destruct (dict_lookup key ps).
Qed.

(** ** The rule store *)

(** C4: when the rules file is not there, loading the rules is not an
    error: it returns, and stores, the built-in rules, whose only pattern
    is text_pattern with pi_code MES_REVENGG_TESTRUN, section_prefix
    SECTION, label_prefix LABEL_, code_suffix _TextPara and the kind
    mapping of text, number and boolean. *)
Theorem process_falls_back_to_default_rules :
  forall s : Store,
    files s (rules_file_path (rule_node s)) = Missing ->
    exists s' cfg,
      RuleForWriterNode_process s = (Return _get_default_rules, s') /\
      rules (rule_node s') = _get_default_rules /\
      _get_default_rules = PDict [("patterns", PDict [("text_pattern", cfg)])] /\
      cfg = PDict [("pi_code", PStr "MES_REVENGG_TESTRUN");
                   ("section_prefix", PStr "SECTION");
                   ("label_prefix", PStr "LABEL_");
                   ("code_suffix", PStr "_TextPara");
                   ("kind_mapping",
                     PDict [("text", PStr "TEXT");
                            ("number", PStr "NUMBER");
                            ("boolean", PStr "BOOLEAN")])].
Proof.
  intros s H. rewrite RuleForWriterNode_process_run. cbv zeta. rewrite H.
  do 2 eexists. repeat split.
Qed.

Lemma process_falls_back_to_default_rules_witness :
  fst (RuleForWriterNode_process (main_converter (only_workbook name_table)))
  = Return _get_default_rules.
Proof.
  destruct (process_falls_back_to_default_rules
              (main_converter (only_workbook name_table)) eq_refl)
    as (s' & cfg & H & _).
  rewrite H. reflexivity.
Defined.

(** C8: looking a pattern up never fails on a RuleSet, whatever the key:
    the result is the configuration stored under the key, and the empty
    mapping when there is none; the store is left as it was. *)
Theorem get_rule_by_pattern_total :
  forall (s : Store) (pattern_key : string),
    ruleset_shaped (rules (rule_node s)) ->
    get_rule_by_pattern pattern_key s =
    (Return (match configured (rules (rule_node s)) pattern_key with
             | Some cfg => cfg
             | None => PDict []
             end), s).
Proof. intros s key H. now apply get_rule_by_pattern_run. Qed.

Lemma default_rules_shaped : ruleset_shaped _get_default_rules.
Proof.
  right. eexists. split; [reflexivity|]. right. eexists. reflexivity.
Qed.

Lemma get_rule_by_pattern_total_witness :
  fst (get_rule_by_pattern "section_pattern"
         (snd (get_rules (main_converter (only_workbook name_table)))))
  = Return (PDict []).
Proof.
  rewrite (get_rule_by_pattern_total
             (snd (get_rules (main_converter (only_workbook name_table))))
             "section_pattern").
  - reflexivity.
  - right. eexists. split; [reflexivity|]. right. eexists. reflexivity.
Defined.

(** Outside that shape the lookup can fail: on rules whose "patterns"
    entry is a list, the list has no [get]. *)
Remark get_rule_by_pattern_needs_a_mapping :
  fst (get_rule_by_pattern "text_pattern"
         (with_rule_node
            (mkRuleForWriterNode "conversion_rules.json"
               (PDict [("patterns", PList [])]))
            (main_converter (only_workbook name_table))))
  = Raise AttributeError.
Proof. reflexivity. Qed.

(** ** The transformer *)

(** C5: for the table with the single column Name and the single row
    "john doe", and no rules file, the transformer's output is the document
    with pi_code MES_REVENGG_TESTRUN and one section, SECTION 1, whose only
    row is LABEL_NAME, TEXT, Name_TextPara, [GENAI_REVENGG_JOHN_DOE]. *)
Theorem end_to_end_name_table :
  forall (fs : string -> file) (w : string -> bool)
         (cwd excel_path rules_path : string) (out : option string),
    fs excel_path = Workbook name_table ->
    fs rules_path = Missing ->
    fst (get_output (ExcelToJsonConverter fs w cwd excel_path rules_path out))
    = Return
        (PDict
           [("pi_code", PStr "MES_REVENGG_TESTRUN");
            ("sections",
              PList
                [PDict
                   [("title", PStr "SECTION 1");
                    ("rows",
                      PList
                        [PDict
                           [("label", PStr "LABEL_NAME");
                            ("kind", PStr "TEXT");
                            ("code", PStr "Name_TextPara");
                            ("html_overrides",
                              PDict [("value",
                                      PStr "[GENAI_REVENGG_JOHN_DOE]")])]])]])]).
Proof.
  intros fs w cwd e r out He Hr.
  rewrite get_output_run. unfold ExcelToJsonConverter at 1.
  cbn [output_json json_writer_node].
  rewrite JsonWriterNode_process_run, get_data_run, InputNode_process_run.
  cbn -[get_rules get_rule_by_pattern name_table]. rewrite He.
  rewrite get_rules_run, RuleForWriterNode_process_run.
  cbn -[get_rule_by_pattern name_table _get_default_rules]. rewrite Hr.
  rewrite get_rule_by_pattern_run by apply default_rules_shaped.
  reflexivity.
Qed.

Lemma end_to_end_name_table_witness :
  fst (get_preview (main_converter (only_workbook name_table)))
  = Return
      (PDict
         [("pi_code", PStr "MES_REVENGG_TESTRUN");
          ("sections",
            PList
              [PDict
                 [("title", PStr "SECTION 1");
                  ("rows",
                    PList
                      [PDict
                         [("label", PStr "LABEL_NAME");
                          ("kind", PStr "TEXT");
                          ("code", PStr "Name_TextPara");
                          ("html_overrides",
                            PDict [("value",
                                    PStr "[GENAI_REVENGG_JOHN_DOE]")])]])]])]).
Proof.
  exact (end_to_end_name_table (only_workbook name_table) (fun _ => true)
           "/work" "input_data.xlsx" "conversion_rules.json" None
           eq_refl eq_refl).
Defined.

(** ** What the getters leave alone *)

Lemma excel_reads_app (p : string) (t1 t2 : list event) :
  excel_reads p (t1 ++ t2) = (excel_reads p t1 + excel_reads p t2)%nat.
Proof. unfold excel_reads. now rewrite filter_app, length_app. Qed.

Lemma json_reads_app (p : string) (t1 t2 : list event) :
  json_reads p (t1 ++ t2) = (json_reads p t1 + json_reads p t2)%nat.
Proof. unfold json_reads. now rewrite filter_app, length_app. Qed.

Lemma writes_app (t1 t2 : list event) :
  writes (t1 ++ t2) = (writes t1 ++ writes t2)%list.
Proof. unfold writes. apply flat_map_app. Qed.

Lemma frame_refl (s : Store) : frame s s.
Proof. now constructor. Qed.

Lemma frame_trans (s1 s2 s3 : Store) :
  frame s1 s2 -> frame s2 s3 -> frame s1 s3.
Proof.
  intros [] []. constructor; congruence.
Qed.

Lemma get_data_frame (s : Store) :
  frame s (snd (get_data s)) /\
  rule_node (snd (get_data s)) = rule_node s /\
  (trace (snd (get_data s)) = trace s \/
   (data (input_node s) = None /\
    trace (snd (get_data s)) =
    (trace s ++ [ReadExcel (excel_file_path (input_node s))])%list)).
Proof.
  rewrite get_data_run. destruct (data (input_node s)) eqn:Hd.
  - simpl. auto using frame_refl.
  - rewrite InputNode_process_run. cbv zeta.
    destruct (files s (excel_file_path (input_node s)));
      (split; [constructor; simpl; try reflexivity;
               rewrite writes_app; simpl; apply app_nil_r
              | split; [reflexivity | right; split; reflexivity]]).
Qed.

Lemma get_rules_frame (s : Store) :
  frame s (snd (get_rules s)) /\
  input_node (snd (get_rules s)) = input_node s /\
  (trace (snd (get_rules s)) = trace s \/
   (rules (rule_node s) = PNone /\
    trace (snd (get_rules s)) =
    (trace s ++ [ReadJson (rules_file_path (rule_node s))])%list)).
Proof.
  rewrite get_rules_run. destruct (rules (rule_node s)) eqn:Hr;
    try (simpl; auto using frame_refl).
  rewrite RuleForWriterNode_process_run. cbv zeta.
  destruct (files s (rules_file_path (rule_node s)));
    (split; [constructor; simpl; try reflexivity;
             rewrite writes_app; simpl; apply app_nil_r
            | split; [reflexivity | right; split; reflexivity]]).
Qed.

Lemma get_data_cached (s s1 : Store) (df : DataFrame) :
  get_data s = (Return (Some df), s1) ->
  data (input_node s1) = Some df.
Proof.
  rewrite get_data_run. destruct (data (input_node s)) eqn:Hd.
  - intros H. injection H as <- <-. exact Hd.
  - rewrite InputNode_process_run. cbv zeta.
    destruct (files s (excel_file_path (input_node s)));
      intros H; try discriminate.
    now injection H as <- <-.
Qed.

Lemma get_rules_cached (s s1 : Store) (r : pyval) :
  get_rules s = (Return r, s1) -> r <> PNone ->
  rules (rule_node s1) = r.
Proof.
  rewrite get_rules_run. destruct (rules (rule_node s)) eqn:Hr;
    try (intros H _; injection H as <- <-; exact Hr).
  rewrite RuleForWriterNode_process_run. cbv zeta.
  destruct (files s (rules_file_path (rule_node s)));
    intros H Hn; injection H as <- <-; try reflexivity; now elim Hn.
Qed.

Lemma get_data_never_raises (s : Store) :
  exists d, fst (get_data s) = Return d.
Proof.
  rewrite get_data_run. destruct (data (input_node s)); [now eexists|].
  rewrite InputNode_process_run. cbv zeta.
  destruct (files s (excel_file_path (input_node s))); now eexists.
Qed.

Lemma get_rules_never_raises (s : Store) :
  exists r, fst (get_rules s) = Return r.
Proof.
  rewrite get_rules_run. destruct (rules (rule_node s)); try now eexists.
  rewrite RuleForWriterNode_process_run. cbv zeta.
  destruct (files s (rules_file_path (rule_node s))); now eexists.
Qed.

Lemma after_calls_fixed {A : Type} (c : M A) (s : Store) (a : outcome A) :
  c s = (a, s) -> forall n, after_calls c n s = s.
Proof.
  intros H n. induction n as [|n IH]; simpl; [reflexivity|].
  now rewrite H.
Qed.

(** A document comes out of [process] only along the path that builds it. *)
Lemma JsonWriterNode_process_document (s s' : Store) (doc : pyval) :
  JsonWriterNode_process s = (Return doc, s') ->
  doc <> PNone ->
  exists data r cfg s1 s2,
    get_data s = (Return (Some data), s1) /\
    get_rules s1 = (Return r, s2) /\
    r <> PNone /\
    get_rule_by_pattern (analyze_data_pattern data) s2
    = (Return (PDict cfg), s2) /\
    doc = PDict [("pi_code", field cfg "pi_code" (PStr "DEFAULT_CODE"));
                 ("sections", PList (sections_of cfg data))] /\
    s' = with_json_writer_node (mkJsonWriterNode doc) s2.
Proof.
  rewrite JsonWriterNode_process_run.
  destruct (get_data s) as [[[data|]|e] s1] eqn:Hd;
    [| intros H; injection H as <- <-; congruence | discriminate].
  destruct (get_rules s1) as [[r|e] s2] eqn:Hr; [|discriminate].
  pose proof (get_rule_by_pattern_store (analyze_data_pattern data) s2) as Hs.
  destruct (get_rule_by_pattern (analyze_data_pattern data) s2)
    as [[pr|e] s3] eqn:Hg; simpl in Hs; subst s3.
  - intros H Hdoc. exists data, r.
    destruct r; try (injection H as <- <-; congruence);
      (destruct pr; try discriminate; cbv zeta in H;
       injection H as <- <-;
       eexists _, s1, s2; repeat split; try reflexivity; congruence).
  - intros H Hdoc.
    destruct r; try discriminate; injection H as <- <-; congruence.
Qed.

(** ** Caching *)

Lemma get_data_again (s s1 : Store) (df : DataFrame) :
  get_data s = (Return (Some df), s1) ->
  get_data s1 = (Return (Some df), s1).
Proof.
  intros H. rewrite get_data_run. now rewrite (get_data_cached _ _ _ H).
Qed.

Lemma get_rules_again (s s1 : Store) (r : pyval) :
  get_rules s = (Return r, s1) -> r <> PNone ->
  get_rules s1 = (Return r, s1).
Proof.
  intros H Hn. rewrite get_rules_run.
  rewrite (get_rules_cached _ _ _ H Hn). now destruct r.
Qed.

Lemma get_output_again (s s1 : Store) (doc : pyval) :
  get_output s = (Return doc, s1) -> doc <> PNone ->
  get_output s1 = (Return doc, s1).
Proof.
  rewrite get_output_run. intros H Hn.
  assert (Ho : output_json (json_writer_node s1) = doc).
  { destruct (output_json (json_writer_node s)) eqn:Ho;
      try (injection H as <- <-; exact Ho).
    destruct (JsonWriterNode_process_document _ _ _ H Hn)
      as (data & r & cfg & sa & sb & _ & _ & _ & _ & _ & ->).
    reflexivity. }
  rewrite get_output_run, Ho. now destruct doc.
Qed.

Lemma get_data_reads (s : Store) (p : string) :
  (excel_reads p (trace (snd (get_data s)))
   <= S (excel_reads p (trace s)))%nat /\
  json_reads p (trace (snd (get_data s))) = json_reads p (trace s).
Proof.
  destruct (get_data_frame s) as (_ & _ & [-> | [_ ->]]).
  - split; [lia | reflexivity].
  - rewrite excel_reads_app, json_reads_app. unfold excel_reads, json_reads.
    simpl. destruct (String.eqb _ p); simpl; lia.
Qed.

Lemma get_rules_reads (s : Store) (p : string) :
  excel_reads p (trace (snd (get_rules s))) = excel_reads p (trace s) /\
  (json_reads p (trace (snd (get_rules s)))
   <= S (json_reads p (trace s)))%nat.
Proof.
  destruct (get_rules_frame s) as (_ & _ & [-> | [_ ->]]).
  - split; [reflexivity | lia].
  - rewrite excel_reads_app, json_reads_app. unfold excel_reads, json_reads.
    simpl. destruct (String.eqb _ p); simpl; lia.
Qed.

(** C6, as the code has it: a getter caches what it loaded.  Once a call of
    get_data, get_rules or get_output has returned a result that is not
    null, every later call returns that result and leaves the store, and
    with it the record of file accesses, as it is; the call that loaded the
    result opened each file at most once.  (A null result is not cached.) *)
Theorem getters_cache_loaded_results :
  forall s : Store,
    (forall df s1,
       get_data s = (Return (Some df), s1) ->
       get_data s1 = (Return (Some df), s1) /\
       (forall n, after_calls get_data n s1 = s1) /\
       (forall p, excel_reads p (trace s1)
                  <= S (excel_reads p (trace s)))%nat) /\
    (forall r s1,
       get_rules s = (Return r, s1) -> r <> PNone ->
       get_rules s1 = (Return r, s1) /\
       (forall n, after_calls get_rules n s1 = s1) /\
       (forall p, json_reads p (trace s1)
                  <= S (json_reads p (trace s)))%nat) /\
    (forall doc s1,
       get_output s = (Return doc, s1) -> doc <> PNone ->
       get_output s1 = (Return doc, s1) /\
       (forall n, after_calls get_output n s1 = s1) /\
       (forall p, excel_reads p (trace s1)
                  <= S (excel_reads p (trace s)))%nat /\
       (forall p, json_reads p (trace s1)
                  <= S (json_reads p (trace s)))%nat).
Proof.
  intros s. repeat split.
  - eapply get_data_again; eassumption.
  - eapply after_calls_fixed, get_data_again; eassumption.
  - intros p. pose proof (get_data_reads s p) as [Hp _].
    now rewrite H in Hp.
  - eapply get_rules_again; eassumption.
  - eapply after_calls_fixed, get_rules_again; eassumption.
  - intros p. pose proof (get_rules_reads s p) as [_ Hp].
    now rewrite H in Hp.
  - eapply get_output_again; eassumption.
  - eapply after_calls_fixed, get_output_again; eassumption.
  - intros p. rewrite get_output_run in H.
    destruct (output_json (json_writer_node s)) eqn:Ho;
      try (injection H as <- <-; lia).
    destruct (JsonWriterNode_process_document _ _ _ H H0)
      as (data & r & cfg & sa & sb & Hd & Hr & _ & _ & _ & ->).
    pose proof (get_data_reads s p) as [Hp _].
    pose proof (get_rules_reads sa p) as [Hq _].
    rewrite Hd in Hp. rewrite Hr in Hq. simpl in *. lia.
  - intros p. rewrite get_output_run in H.
    destruct (output_json (json_writer_node s)) eqn:Ho;
      try (injection H as <- <-; lia).
    destruct (JsonWriterNode_process_document _ _ _ H H0)
      as (data & r & cfg & sa & sb & Hd & Hr & _ & _ & _ & ->).
    pose proof (get_data_reads s p) as [_ Hp].
    pose proof (get_rules_reads sa p) as [_ Hq].
    rewrite Hd in Hp. rewrite Hr in Hq. simpl in *. lia.
Qed.

(** C6, as stated, fails: a load that yields null is not cached.  With a
    damaged workbook the first get_data returns null and the second opens
    the workbook again; with a rules file that holds [null] the same goes
    for get_rules. *)
Lemma null_results_are_loaded_again :
  fst (get_data (main_converter damaged_directory)) = Return None /\
  excel_reads "input_data.xlsx"
    (trace (after_calls get_data 2 (main_converter damaged_directory))) = 2%nat
  /\
  fst (get_rules (main_converter damaged_directory)) = Return PNone /\
  json_reads "conversion_rules.json"
    (trace (after_calls get_rules 2 (main_converter damaged_directory))) = 2%nat.
Proof. repeat split. Qed.

(** In general: after a null result the next call of get_data or get_rules
    opens the file again. *)
Lemma null_results_are_not_cached (s s1 : Store) :
  (get_data s = (Return None, s1) ->
   trace (snd (get_data s1)) =
   (trace s1 ++ [ReadExcel (excel_file_path (input_node s1))])%list) /\
  (get_rules s = (Return PNone, s1) ->
   trace (snd (get_rules s1)) =
   (trace s1 ++ [ReadJson (rules_file_path (rule_node s1))])%list).
Proof.
  split.
  - rewrite get_data_run. destruct (data (input_node s)) eqn:Hd;
      [discriminate|].
    rewrite InputNode_process_run. cbv zeta.
    destruct (files s (excel_file_path (input_node s)));
      intros H; try discriminate; injection H as <-;
      rewrite get_data_run; simpl; rewrite Hd, InputNode_process_run;
      simpl;
      now destruct (files s (excel_file_path (input_node s))).
  - rewrite get_rules_run. destruct (rules (rule_node s)) eqn:Hr;
      try discriminate.
    rewrite RuleForWriterNode_process_run. cbv zeta.
    destruct (files s (rules_file_path (rule_node s))) eqn:Hf;
      intros H; try discriminate; injection H as; subst;
      rewrite get_rules_run; simpl; rewrite ?Hr;
      rewrite RuleForWriterNode_process_run; simpl; rewrite Hf;
      reflexivity.
Qed.

(** ** No table or no rules *)

(** C7: when the table is unavailable, or the table is there but the rules
    are unavailable, the transformer's process returns null; the stored
    output is what it was before (unset stays unset), no file has changed
    and nothing was written. *)
Theorem process_without_table_or_rules :
  forall s : Store,
    (forall s1,
       get_data s = (Return None, s1) ->
       JsonWriterNode_process s = (Return PNone, s1) /\
       output_json (json_writer_node s1) = output_json (json_writer_node s) /\
       files s1 = files s /\
       writes (trace s1) = writes (trace s)) /\
    (forall data s1 s2,
       get_data s = (Return (Some data), s1) ->
       get_rules s1 = (Return PNone, s2) ->
       JsonWriterNode_process s = (Return PNone, s2) /\
       output_json (json_writer_node s2) = output_json (json_writer_node s) /\
       files s2 = files s /\
       writes (trace s2) = writes (trace s)).
Proof.
  intros s. split.
  - intros s1 Hd. rewrite JsonWriterNode_process_run, Hd.
    destruct (get_data_frame s) as ([] & _). rewrite Hd in *. simpl in *.
    repeat split; congruence.
  - intros data s1 s2 Hd Hr. rewrite JsonWriterNode_process_run, Hd, Hr.
    destruct (get_data_frame s) as (F1 & _).
    destruct (get_rules_frame s1) as (F2 & _).
    rewrite Hd in F1. rewrite Hr in F2. simpl in *.
    destruct (frame_trans _ _ _ F1 F2).
    repeat split; congruence.
Qed.

Lemma OutputNode_process_without_document (s s1 : Store) :
  get_output s = (Return PNone, s1) ->
  OutputNode_process s = (Return false, s1).
Proof.
  intros H. unfold OutputNode_process, try_except, bind. now rewrite H.
Qed.

(** ** Columns that ask for section_pattern *)

Lemma analyze_data_pattern_section (data : DataFrame) :
  substring_of "section" (joined_columns data) ->
  ~ substring_of "text" (joined_columns data) ->
  ~ substring_of "name" (joined_columns data) ->
  analyze_data_pattern data = "section_pattern".
Proof.
  intros Hs Ht Hn. unfold analyze_data_pattern. fold (joined_columns data).
  apply contains_false in Ht, Hn. apply contains_spec in Hs.
  now rewrite Ht, Hn, Hs.
Qed.

(** C9: when the joined lowercase column names contain "section" but
    neither "text" nor "name", and the loaded RuleSet has no section_pattern
    (the built-in rules have none), the document has pi_code DEFAULT_CODE
    and its sections are built with section_prefix SECTION, label_prefix
    LABEL_ and code_suffix _Code. *)
Theorem section_columns_fall_back_to_defaults :
  forall (s s1 s2 : Store) (data : DataFrame) (r : pyval),
    get_data s = (Return (Some data), s1) ->
    get_rules s1 = (Return r, s2) ->
    r <> PNone ->
    ruleset_shaped r ->
    configured r "section_pattern" = None ->
    substring_of "section" (joined_columns data) ->
    ~ substring_of "text" (joined_columns data) ->
    ~ substring_of "name" (joined_columns data) ->
    configured _get_default_rules "section_pattern" = None /\
    exists s3,
      JsonWriterNode_process s =
      (Return
         (PDict
            [("pi_code", PStr "DEFAULT_CODE");
             ("sections",
               PList
                 (map (fun ir =>
                         section_of (PStr "SECTION") (PStr "LABEL_")
                                    (PStr "_Code") (df_columns data)
                                    (fst ir) (snd ir))
                      (combine (seq 0 (length (df_values data)))
                               (df_values data))))]), s3).
Proof.
  intros s s1 s2 data r Hd Hr Hn Hshape Hcfg Hs Ht Hm.
  split; [reflexivity|].
  rewrite JsonWriterNode_process_run, Hd, Hr.
  rewrite (analyze_data_pattern_section data Hs Ht Hm).
  rewrite get_rule_by_pattern_run
    by (now rewrite (get_rules_cached _ _ _ Hr Hn)).
  rewrite (get_rules_cached _ _ _ Hr Hn), Hcfg.
  destruct r; try (now elim Hn); eexists; reflexivity.
Qed.

Lemma section_columns_fall_back_to_defaults_witness :
  fst (JsonWriterNode_process (main_converter (only_workbook section_table)))
  = Return
      (PDict
         [("pi_code", PStr "DEFAULT_CODE");
          ("sections",
            PList
              [PDict
                 [("title", PStr "SECTION 1");
                  ("rows",
                    PList
                      [PDict
                         [("label", PStr "LABEL_SECTION");
                          ("kind", PStr "TEXT");
                          ("code", PStr "Section_Code");
                          ("html_overrides",
                            PDict [("value",
                                    PStr "[GENAI_REVENGG_INTRO]")])];
                       PDict
                         [("label", PStr "LABEL_ID");
                          ("kind", PStr "NUMBER");
                          ("code", PStr "Id_Code");
                          ("html_overrides",
                            PDict [("value",
                                    PStr "[GENAI_REVENGG_1]")])]])]])]).
Proof.
  destruct (section_columns_fall_back_to_defaults
              (main_converter (only_workbook section_table))
              (snd (get_data (main_converter (only_workbook section_table))))
              (snd (get_rules
                 (snd (get_data
                    (main_converter (only_workbook section_table))))))
              section_table _get_default_rules)
    as [_ [s3 H]].
  - reflexivity.
  - reflexivity.
  - discriminate.
  - right. eexists. split; [reflexivity|]. right. eexists. reflexivity.
  - reflexivity.
  - exists "", " id". reflexivity.
  - apply contains_false. reflexivity.
  - apply contains_false. reflexivity.
  - rewrite H. reflexivity.
Defined.

(** ** Kinds in a document *)

Lemma sections_of_kinds (cfg : list (string * pyval)) (data : DataFrame) :
  Forall (section_with_kinds (fun k => k = "TEXT" \/ k = "NUMBER"))
         (sections_of cfg data).
Proof.
  unfold sections_of. apply Forall_map, Forall_forall. intros [i r] _.
  unfold section_of. do 2 eexists. split; [reflexivity|].
  apply Forall_map, Forall_forall. intros [c v] _.
  unfold row_item. do 4 eexists. split; [reflexivity|].
  apply determine_data_type_text_or_number.
Qed.

(** C10: determine_data_type answers TEXT or NUMBER and never BOOLEAN, so
    every RowItem of every document the transformer produces has kind TEXT
    or NUMBER. *)
Theorem kind_is_never_boolean :
  (forall v : cell,
     (determine_data_type v = "TEXT" \/ determine_data_type v = "NUMBER") /\
     determine_data_type v <> "BOOLEAN") /\
  (forall (s s' : Store) (doc : pyval),
     JsonWriterNode_process s = (Return doc, s') ->
     doc <> PNone ->
     document_with_kinds
       (fun k => (k = "TEXT" \/ k = "NUMBER") /\ k <> "BOOLEAN") doc).
Proof.
  split.
  - intros v. split; [apply determine_data_type_text_or_number|].
    destruct (determine_data_type_text_or_number v) as [-> | ->];
      discriminate.
  - intros s s' doc H Hn.
    destruct (JsonWriterNode_process_document _ _ _ H Hn)
      as (data & r & cfg & sa & sb & _ & _ & _ & _ & -> & _).
    do 2 eexists. split; [reflexivity|].
    eapply Forall_impl; [|apply sections_of_kinds].
    intros sec (title & items & -> & Hi). do 2 eexists.
    split; [reflexivity|].
    eapply Forall_impl; [|exact Hi].
    intros it (l & k & c & v & -> & Hk). do 4 eexists.
    split; [reflexivity|]. split; [exact Hk|].
    destruct Hk as [-> | ->]; discriminate.
Qed.

(** * The remaining methods *)

(** ** What loading does to the store *)

Lemma loads_refl (s : Store) : loads s s.
Proof.
  constructor; try reflexivity.
  - exists []. split; [now rewrite app_nil_r | constructor].
  - now left.
Qed.

Lemma own_read_paths (s s' : Store) (e : event) :
  excel_file_path (input_node s') = excel_file_path (input_node s) ->
  rules_file_path (rule_node s') = rules_file_path (rule_node s) ->
  own_read s' e -> own_read s e.
Proof. unfold own_read. intros -> ->. auto. Qed.

Lemma loads_trans (s1 s2 s3 : Store) :
  loads s1 s2 -> loads s2 s3 -> loads s1 s3.
Proof.
  intros [F1 W1 O1 E1 R1 (t1 & T1 & A1) I1] [F2 W2 O2 E2 R2 (t2 & T2 & A2) I2].
  constructor; try congruence.
  - exists (t1 ++ t2)%list. split.
    + now rewrite T2, T1, app_assoc.
    + apply Forall_app. split; [exact A1|].
      eapply Forall_impl; [|exact A2]. intros e.
      now apply own_read_paths.
  - destruct I2 as [I2 | (df & I2)].
    + rewrite I2. exact I1.
    + right. exists df. now rewrite I2, E1.
Qed.

Lemma loads_with_json_writer_node (s s' : Store) (n : JsonWriterNode) :
  loads s s' -> loads s (with_json_writer_node n s').
Proof. intros []. now constructor. Qed.

Lemma get_data_loads (s : Store) : loads s (snd (get_data s)).
Proof.
  rewrite get_data_run. destruct (data (input_node s)); [apply loads_refl|].
  rewrite InputNode_process_run. cbv zeta.
  destruct (files s (excel_file_path (input_node s)));
    (constructor; simpl; try reflexivity;
     [ eexists; split; [reflexivity|]; repeat constructor
     | first [now left | right; now eexists] ]).
Qed.

Lemma get_rules_loads (s : Store) : loads s (snd (get_rules s)).
Proof.
  rewrite get_rules_run.
  destruct (rules (rule_node s)); try apply loads_refl.
  rewrite RuleForWriterNode_process_run. cbv zeta.
  destruct (files s (rules_file_path (rule_node s)));
    (constructor; simpl; try reflexivity;
     [ eexists; split; [reflexivity|]; constructor; [now right | constructor]
     | now left ]).
Qed.

Lemma JsonWriterNode_process_loads (s : Store) :
  loads s (snd (JsonWriterNode_process s)).
Proof.
  rewrite JsonWriterNode_process_run.
  pose proof (get_data_loads s) as L1.
  destruct (get_data s) as [[[data|]|e] s1]; simpl in L1; try exact L1.
  pose proof (get_rules_loads s1) as L2.
  pose proof (loads_trans _ _ _ L1 L2) as L.
  destruct (get_rules s1) as [[r|e] s2]; simpl in L; [|exact L].
  pose proof (get_rule_by_pattern_store (analyze_data_pattern data) s2) as Hs.
  destruct (get_rule_by_pattern (analyze_data_pattern data) s2)
    as [[pr|e] s3]; simpl in Hs; subst s3;
    destruct r; try exact L; destruct pr; try exact L;
    now apply loads_with_json_writer_node.
Qed.

Lemma get_output_loads (s : Store) : loads s (snd (get_output s)).
Proof.
  rewrite get_output_run.
  destruct (output_json (json_writer_node s));
    first [apply JsonWriterNode_process_loads | apply loads_refl].
Qed.


Lemma loads_consistent (s s' : Store) :
  loads s s' -> input_consistent s -> input_consistent s'.
Proof.
  intros [_ _ _ _ _ _ [I | (df & I)]] H; unfold input_consistent in *;
    rewrite I; [exact H | now simpl].
Qed.

(** ** OutputNode *)

Lemma OutputNode_process_run (s : Store) :
  OutputNode_process s =
  match get_output s with
  | (Return PNone, s1) => (Return false, s1)
  | (Return doc, s1) =>
      let path := output_file_path (output_node s1) in
      if writable s1 path
      then (Return true,
            with_files
              (fun p => if String.eqb p path then JsonDoc doc
                        else files s1 p)
              (with_trace (trace s1 ++ [WriteJson path]) s1))
      else (Return false, s1)
  | (Raise _, s1) => (Return false, s1)
  end.
Proof.
  unfold OutputNode_process, try_except, bind.
  destruct (get_output s) as [[doc|e] s1]; [|reflexivity].
  destruct doc; try reflexivity;
    (unfold json_dump, bind, gets, log, modify, ret, raise; simpl;
     now destruct (writable s1 (output_file_path (output_node s1)))).
Qed.

(** ** The input node's fields *)

Lemma fresh_converter_consistent (fs : string -> file) (w : string -> bool)
    (cwd e r : string) (out : option string) :
  input_consistent (ExcelToJsonConverter fs w cwd e r out).
Proof. split; reflexivity. Qed.

(** X1: data, columns and rows of the input node always agree.  Every
    method keeps it so: a load sets the three together, and a failed load
    touches none of them. *)
Theorem input_node_stays_consistent :
  forall s : Store,
    input_consistent s ->
    input_consistent (snd (InputNode_process s)) /\
    input_consistent (snd (get_data s)) /\
    input_consistent (snd (RuleForWriterNode_process s)) /\
    input_consistent (snd (get_rules s)) /\
    input_consistent (snd (JsonWriterNode_process s)) /\
    input_consistent (snd (get_output s)) /\
    input_consistent (snd (OutputNode_process s)).
Proof.
  intros s H. repeat split.
  - rewrite InputNode_process_run. cbv zeta.
    now destruct (files s (excel_file_path (input_node s))).
  - exact (loads_consistent _ _ (get_data_loads s) H).
  - rewrite RuleForWriterNode_process_run. cbv zeta.
    now destruct (files s (rules_file_path (rule_node s))).
  - exact (loads_consistent _ _ (get_rules_loads s) H).
  - exact (loads_consistent _ _ (JsonWriterNode_process_loads s) H).
  - exact (loads_consistent _ _ (get_output_loads s) H).
  - rewrite OutputNode_process_run.
    pose proof (loads_consistent _ _ (get_output_loads s) H) as H1.
    destruct (get_output s) as [[doc|e] s1]; simpl in H1; [|exact H1].
    destruct doc; try exact H1; cbv zeta;
      now destruct (writable s1 (output_file_path (output_node s1))).
Qed.

Lemma input_node_stays_consistent_witness :
  input_consistent
    (snd (OutputNode_process (main_converter (only_workbook sparse_table)))).
Proof.
  apply (input_node_stays_consistent
           (main_converter (only_workbook sparse_table))).
  split; reflexivity.
Defined.

Lemma sections_of_length (cfg : list (string * pyval)) (data : DataFrame) :
  length (sections_of cfg data) = length (df_values data).
Proof. unfold sections_of. now rewrite length_map, length_enumerate. Qed.

(** X2: when the transformer has produced a document from a consistent
    store, the input node reports as many rows as the document has
    sections, and the columns of the table the document was built from. *)
Theorem row_count_is_section_count :
  forall (s s1 : Store) (doc : pyval),
    input_consistent s ->
    JsonWriterNode_process s = (Return doc, s1) ->
    doc <> PNone ->
    exists pi_code sections table,
      doc = PDict [("pi_code", pi_code); ("sections", PList sections)] /\
      data (input_node s1) = Some table /\
      get_row_count s1 = (Return (length sections), s1) /\
      get_columns s1 = (Return (df_columns table), s1).
Proof.
  intros s s1 doc Hc H Hn.
  destruct (JsonWriterNode_process_document _ _ _ H Hn)
    as (table & r & cfg & sa & sb & Hd & Hr & _ & _ & -> & ->).
  pose proof (loads_consistent _ _ (get_data_loads s) Hc) as Ha.
  rewrite Hd in Ha. simpl in Ha. unfold input_consistent in Ha.
  pose proof (get_data_cached _ _ _ Hd) as Hdata. rewrite Hdata in Ha.
  destruct (get_rules_frame sa) as (_ & Hi & _). rewrite Hr in Hi.
  simpl in Hi. destruct Ha as [Hcols Hrows].
  do 3 eexists. split; [reflexivity|].
  unfold get_row_count, get_columns, gets. cbn -[sections_of].
  rewrite Hi, Hrows, Hcols, sections_of_length. now repeat split.
Qed.

Lemma row_count_is_section_count_witness :
  fst (get_row_count
         (snd (JsonWriterNode_process
                 (main_converter (only_workbook sparse_table)))))
  = Return 1%nat.
Proof.
  destruct (row_count_is_section_count
              (main_converter (only_workbook sparse_table))
              (snd (JsonWriterNode_process
                      (main_converter (only_workbook sparse_table))))
              (PDict [("pi_code", PStr "MES_REVENGG_TESTRUN");
                      ("sections", PList (sections_of
                         [("pi_code", PStr "MES_REVENGG_TESTRUN");
                          ("section_prefix", PStr "SECTION");
                          ("label_prefix", PStr "LABEL_");
                          ("code_suffix", PStr "_TextPara")] sparse_table))]))
    as (pi & secs & table & Hdoc & _ & Hcount & _).
  - split; reflexivity.
  - reflexivity.
  - discriminate.
  - rewrite Hcount. injection Hdoc as _ <-. reflexivity.
Defined.

(** ** convert *)




(** X5: a run of convert touches the converter's own three files only:
    what it adds to the record of file accesses are reads of the workbook
    and of the rules file and a write of the output file. *)
Theorem convert_accesses_own_files_only :
  forall s : Store,
    exists t,
      trace (snd (convert s)) = (trace s ++ t)%list /\
      Forall (own_access s) t.
Proof.
  intros s. unfold convert. rewrite OutputNode_process_run.
  destruct (get_output_loads s) as [_ _ Ho _ _ (t & Ht & Hr) _].
  assert (Hown : Forall (own_access s) t).
  { eapply Forall_impl; [|exact Hr]. intros e He. now left. }
  destruct (get_output s) as [[doc|e] s1]; simpl in *;
    [|now exists t].
  destruct doc; try (now exists t); cbv zeta;
    (destruct (writable s1 (output_file_path (output_node s1)));
     [| now exists t];
     exists (t ++ [WriteJson (output_file_path (output_node s))])%list;
     simpl; rewrite Ht, Ho, app_assoc; split; [reflexivity|];
     apply Forall_app; split; [exact Hown|];
     constructor; [now right | constructor]).
Qed.

(** ** The transformer, run again and run on bad rules *)

Lemma get_rule_by_pattern_rules (key : string) (s s' : Store) :
  rules (rule_node s') = rules (rule_node s) ->
  fst (get_rule_by_pattern key s') = fst (get_rule_by_pattern key s).
Proof.
  intros H. unfold get_rule_by_pattern, bind, gets, lift, ret. simpl.
  rewrite H. destruct (truthy (rules (rule_node s))); [|reflexivity].
  destruct (py_in "patterns" (rules (rule_node s))) as [[|]|e];
    try reflexivity.
  now destruct (py_getitem (rules (rule_node s)) "patterns").
Qed.

(** X6: process, called again after it has produced a document, produces
    the same document and leaves the store as it is: the table and the
    rules come from the nodes' caches and no file is opened. *)
Theorem process_again_same_document :
  forall (s s1 : Store) (doc : pyval),
    JsonWriterNode_process s = (Return doc, s1) ->
    doc <> PNone ->
    JsonWriterNode_process s1 = (Return doc, s1).
Proof.
  intros s s1 doc H Hn.
  destruct (JsonWriterNode_process_document _ _ _ H Hn)
    as (table & r & cfg & sa & sb & Hd & Hr & Hrn & Hg & Hdoc & Hs).
  pose proof (get_data_cached _ _ _ Hd) as Hdata.
  destruct (get_rules_frame sa) as (_ & Hi & _). rewrite Hr in Hi.
  simpl in Hi.
  pose proof (get_rules_cached _ _ _ Hr Hrn) as Hrules.
  assert (Hd1 : get_data s1 = (Return (Some table), s1)).
  { rewrite get_data_run, Hs. simpl. now rewrite Hi, Hdata. }
  assert (Hr1 : get_rules s1 = (Return r, s1)).
  { rewrite get_rules_run, Hs. simpl. rewrite Hrules. now destruct r. }
  assert (Hg1 : get_rule_by_pattern (analyze_data_pattern table) s1
                = (Return (PDict cfg), s1)).
  { pose proof (get_rule_by_pattern_store (analyze_data_pattern table) s1)
      as Hst.
    pose proof (get_rule_by_pattern_rules (analyze_data_pattern table) sb s1)
      as Hfst.
    rewrite Hg in Hfst. simpl in Hfst.
    destruct (get_rule_by_pattern (analyze_data_pattern table) s1)
      as [o st]. simpl in *. subst st. rewrite Hfst; [reflexivity|].
    now rewrite Hs. }
  rewrite JsonWriterNode_process_run, Hd1, Hr1, Hg1. cbv zeta.
  rewrite <- Hdoc. destruct r; try (now elim Hrn); now rewrite Hs.
Qed.

Lemma process_again_same_document_witness :
  JsonWriterNode_process
    (snd (JsonWriterNode_process (main_converter (only_workbook name_table))))
  = JsonWriterNode_process (main_converter (only_workbook name_table)).
Proof.
  rewrite (process_again_same_document
             (main_converter (only_workbook name_table))
             (snd (JsonWriterNode_process
                     (main_converter (only_workbook name_table))))
             (PDict [("pi_code", PStr "MES_REVENGG_TESTRUN");
                     ("sections", PList (sections_of
                        [("pi_code", PStr "MES_REVENGG_TESTRUN");
                         ("section_prefix", PStr "SECTION");
                         ("label_prefix", PStr "LABEL_");
                         ("code_suffix", PStr "_TextPara")] name_table))])).
  - reflexivity.
  - reflexivity.
  - discriminate.
Defined.

(** X7: when the configuration found for the pattern is not a mapping,
    process raises AttributeError at its first [get]; no output is stored,
    get_preview lets the exception through, and convert turns it into
    False. *)
Theorem process_raises_on_bad_configuration :
  forall (s s1 s2 : Store) (table : DataFrame) (r pattern_rules : pyval),
    output_json (json_writer_node s) = PNone ->
    get_data s = (Return (Some table), s1) ->
    get_rules s1 = (Return r, s2) ->
    r <> PNone ->
    fst (get_rule_by_pattern (analyze_data_pattern table) s2)
    = Return pattern_rules ->
    (forall cfg, pattern_rules <> PDict cfg) ->
    JsonWriterNode_process s = (Raise AttributeError, s2) /\
    output_json (json_writer_node s2) = PNone /\
    get_preview s = (Raise AttributeError, s2) /\
    convert s = (Return false, s2).
Proof.
  intros s s1 s2 table r pr Ho Hd Hr Hrn Hg Hpr.
  assert (Hp : JsonWriterNode_process s = (Raise AttributeError, s2)).
  { rewrite JsonWriterNode_process_run, Hd, Hr.
    pose proof (get_rule_by_pattern_store (analyze_data_pattern table) s2)
      as Hst.
    destruct (get_rule_by_pattern (analyze_data_pattern table) s2)
      as [o st]. simpl in *. subst st o.
    destruct r; try (now elim Hrn);
      (destruct pr as [| | | | | | cfg]; try reflexivity;
       now elim (Hpr cfg)). }
  assert (Hout : get_output s = (Raise AttributeError, s2)).
  { rewrite get_output_run, Ho. exact Hp. }
  repeat split.
  - exact Hp.
  - destruct (get_data_frame s) as ([_ _ J1 _ _ _ _] & _).
    destruct (get_rules_frame s1) as ([_ _ J2 _ _ _ _] & _).
    rewrite Hd in J1. rewrite Hr in J2. simpl in *. congruence.
  - exact Hout.
  - unfold convert. now rewrite OutputNode_process_run, Hout.
Qed.

Lemma process_raises_on_bad_configuration_witness :
  get_preview (main_converter misconfigured_directory)
  = (Raise AttributeError,
     snd (get_rules (snd (get_data (main_converter misconfigured_directory)))))
  /\
  fst (convert (main_converter misconfigured_directory)) = Return false.
Proof.
  destruct (process_raises_on_bad_configuration
              (main_converter misconfigured_directory)
              (snd (get_data (main_converter misconfigured_directory)))
              (snd (get_rules
                 (snd (get_data (main_converter misconfigured_directory)))))
              name_table
              (PDict [("patterns", PDict [("text_pattern", PStr "oops")])])
              (PStr "oops"))
    as (_ & _ & Hprev & Hconv).
  - reflexivity.
  - reflexivity.
  - reflexivity.
  - discriminate.
  - reflexivity.
  - discriminate.
  - split; [exact Hprev | now rewrite Hconv].
Defined.

(** X8: the lookup of a pattern never changes the store and never raises
    KeyError, whatever was loaded as rules: the membership test guards the
    subscript.  What it can raise is TypeError (rules that are no
    container, or a list or text that holds "patterns") and AttributeError
    (a "patterns" entry that is no mapping). *)
Theorem get_rule_by_pattern_never_key_error :
  forall (s : Store) (pattern_key : string),
    snd (get_rule_by_pattern pattern_key s) = s /\
    forall e, fst (get_rule_by_pattern pattern_key s) = Raise e ->
              (e = TypeError \/ e = AttributeError) /\ e <> KeyError.
Proof.
  intros s key. split; [apply get_rule_by_pattern_store|].
  assert (H : forall e,
             fst (get_rule_by_pattern key s) = Raise e ->
             e = TypeError \/ e = AttributeError).
  { unfold get_rule_by_pattern, bind, gets, lift, ret. simpl.
    destruct (rules (rule_node s)) as [| b | n | f | t | l | d]; simpl;
      intros e.
    - discriminate.
    - destruct b; simpl; intros H; injection H as <- || discriminate H;
        now left.
    - destruct (negb (n =? 0)%Z); simpl; intros H;
        injection H as <- || discriminate H; now left.
    - destruct (negb _); simpl; intros H;
        injection H as <- || discriminate H; now left.
    - destruct (negb _); [|discriminate].
      destruct (PyStr.contains "patterns" t); simpl; intros H;
        injection H as <- || discriminate H; now left.
    - destruct l; [discriminate|].
      destruct (existsb _ _); simpl; intros H;
        injection H as <- || discriminate H; now left.
    - destruct d as [|kv d]; [discriminate|].
      destruct (dict_lookup "patterns" (kv :: d)) as [x|]; simpl;
        [|discriminate].
      destruct x; simpl; intros H; injection H as <- || discriminate H;
        now right. }
  intros e He. split; [now apply H|].
  destruct (H e He) as [-> | ->]; discriminate.
Qed.

(** ** Pattern selection, column by column *)

Lemma string_app_assoc (a b c : string) : (a ++ b) ++ c = a ++ b ++ c.
Proof. induction a as [|x a IH]; simpl; [reflexivity | now rewrite IH]. Qed.

Lemma substring_of_app_l (sub a b : string) :
  substring_of sub a -> substring_of sub (a ++ b).
Proof.
  intros (pre & post & ->). exists pre, (post ++ b).
  now rewrite !string_app_assoc.
Qed.

Lemma substring_of_app_r (sub a b : string) :
  substring_of sub b -> substring_of sub (a ++ b).
Proof.
  intros (pre & post & ->). exists (a ++ pre), post.
  now rewrite !string_app_assoc.
Qed.

Lemma starts_before_space (sub : string) :
  PyStr.mem_char " " sub = false ->
  forall a b post,
    sub ++ post = a ++ String " " b -> exists post', a = sub ++ post'.
Proof.
  induction sub as [|c sub IH]; intros Hsp a b post H.
  - now exists a.
  - simpl in Hsp. apply orb_false_elim in Hsp. destruct Hsp as [Hc Hsp].
    destruct a as [|d a]; simpl in H; injection H as -> H.
    + discriminate Hc.
    + destruct (IH Hsp _ _ _ H) as [post' ->]. now exists post'.
Qed.

Lemma occurrence_avoids_space (sub : string) :
  PyStr.mem_char " " sub = false ->
  forall a b,
    substring_of sub (a ++ String " " b) ->
    substring_of sub a \/ substring_of sub b.
Proof.
  intros Hsp a b (pre & post & H). revert a H.
  induction pre as [|p pre IH]; intros a H.
  - left. symmetry in H. destruct (starts_before_space sub Hsp _ _ _ H)
      as [post' ->]. now exists "", post'.
  - destruct a as [|d a]; simpl in H; injection H as <- H.
    + right. now exists pre, post.
    + destruct (IH _ H) as [(pre' & post' & ->) | Hb]; [left | now right].
      now exists (String d pre'), post'.
Qed.

Lemma substring_of_join (sub : string) (l : list string) :
  PyStr.mem_char " " sub = false -> sub <> "" ->
  (substring_of sub (PyStr.join " " l) <->
   exists c, In c l /\ substring_of sub c).
Proof.
  intros Hsp Hne. unfold PyStr.join.
  induction l as [|x l IH].
  - split.
    + intros (pre & post & H). simpl in H.
      destruct pre; [|discriminate]. destruct sub; [now elim Hne|].
      discriminate.
    + now intros (c & [] & _).
  - destruct l as [|y l].
    + simpl. split.
      * intros H. now exists x; auto.
      * now intros (c & [<- | []] & H).
    + change (String.concat " " (x :: y :: l))
        with (x ++ String " " (String.concat " " (y :: l))).
      split.
      * intros H. apply (occurrence_avoids_space sub Hsp) in H.
        destruct H as [H | H].
        -- exists x. split; [now left | exact H].
        -- apply IH in H. destruct H as (c & Hc & H).
           exists c. split; [now right | exact H].
      * intros (c & [<- | Hc] & H).
        -- now apply substring_of_app_l.
        -- apply substring_of_app_r.
           apply (substring_of_app_r sub " " (String.concat " " (y :: l))).
           apply IH. now exists c.
Qed.

Lemma joined_columns_mention (word : string) (data : DataFrame) :
  PyStr.mem_char " " word = false -> word <> "" ->
  (substring_of word (joined_columns data) <-> column_mentions word data).
Proof.
  intros Hsp Hne. unfold joined_columns, column_mentions.
  rewrite (substring_of_join word _ Hsp Hne). split.
  - intros (c' & Hin & H). apply in_map_iff in Hin.
    destruct Hin as (c & <- & Hin). now exists c.
  - intros (c & Hin & H). exists (PyStr.lower c). split; [|exact H].
    now apply in_map.
Qed.

(** X9: the pattern is decided column by column.  Because the names are
    joined with spaces and none of the three words has a space, a word is
    found in the joined text exactly when it is found in one column name:
    section_pattern is chosen exactly when some column name contains
    "section" and no column name contains "text" or "name", ignoring case;
    text_pattern is chosen in every other case. *)
Theorem analyze_data_pattern_by_column :
  forall data : DataFrame,
    (analyze_data_pattern data = "section_pattern" <->
     column_mentions "section" data /\
     ~ column_mentions "text" data /\
     ~ column_mentions "name" data) /\
    (analyze_data_pattern data = "text_pattern" <->
     column_mentions "text" data \/ column_mentions "name" data \/
     ~ column_mentions "section" data).
Proof.
  intros data.
  assert (Ht := joined_columns_mention "text" data eq_refl
                  ltac:(discriminate)).
  assert (Hn := joined_columns_mention "name" data eq_refl
                  ltac:(discriminate)).
  assert (Hs := joined_columns_mention "section" data eq_refl
                  ltac:(discriminate)).
  rewrite <- Ht, <- Hn, <- Hs, <- !contains_spec.
  unfold analyze_data_pattern. fold (joined_columns data).
  destruct (PyStr.contains "text" (joined_columns data));
    destruct (PyStr.contains "name" (joined_columns data));
    destruct (PyStr.contains "section" (joined_columns data)); simpl;
    split; split; intros H; try reflexivity; try discriminate H;
    intuition congruence.
Qed.

(** ** Letter case *)

Lemma lower_upper_char (c : ascii) :
  PyStr.lower_char (PyStr.upper_char c) = PyStr.lower_char c.
Proof. destruct c as [[] [] [] [] [] [] [] []]; reflexivity. Qed.

Lemma lower_upper (s : string) : PyStr.lower (PyStr.upper s) = PyStr.lower s.
Proof.
  induction s as [|c s IH]; simpl; [reflexivity|].
  now rewrite lower_upper_char, IH.
Qed.

(** X10: pattern selection looks at the column names only, and not at
    their letter case: a table whose column names are the upper-cased
    names of another gets the same pattern, whatever the rows of either. *)
Theorem analyze_data_pattern_ignores_case_and_rows :
  forall (cols : list string) (values values' : list (list cell)),
    analyze_data_pattern (mkDataFrame (map PyStr.upper cols) values)
    = analyze_data_pattern (mkDataFrame cols values').
Proof.
  intros cols values values'. unfold analyze_data_pattern. simpl.
  rewrite map_map.
  replace (map (fun c => PyStr.lower (PyStr.upper c)) cols)
    with (map PyStr.lower cols); [reflexivity|].
  apply map_ext. intros c. now rewrite lower_upper.
Qed.

(** ** The placeholder of a row item *)





(** ** The entries of a configuration that matter *)

(** X12: process_sections reads three entries of the pattern
    configuration and no other: two configurations that agree on
    section_prefix, label_prefix and code_suffix give the same sections, so
    that kind_mapping and pi_code have no effect on them. *)
Theorem process_sections_reads_three_entries :
  forall (data : DataFrame) (cfg cfg' : list (string * pyval)),
    dict_lookup "section_prefix" cfg = dict_lookup "section_prefix" cfg' ->
    dict_lookup "label_prefix" cfg = dict_lookup "label_prefix" cfg' ->
    dict_lookup "code_suffix" cfg = dict_lookup "code_suffix" cfg' ->
    process_sections data (PDict cfg) = process_sections data (PDict cfg').
Proof.
  intros data cfg cfg' Hs Hl Hc. rewrite !process_sections_spec.
  unfold sections_of, field. now rewrite Hs, Hl, Hc.
Qed.

Lemma process_sections_reads_three_entries_witness :
  process_sections sparse_table
    (PDict [("pi_code", PStr "MES_REVENGG_TESTRUN");
            ("section_prefix", PStr "SECTION");
            ("kind_mapping", PDict [("number", PStr "INTEGER")])])
  = process_sections sparse_table (PDict [("section_prefix", PStr "SECTION")]).
Proof.
  apply (process_sections_reads_three_entries sparse_table); reflexivity.
Defined.
